(** * skysensestreamer: camera geometry and airplane position prediction

    A shallow embedding of [skysensestreamer/dataproc/coords.py] and
    [skysensestreamer/camera.py].

    Modelling conventions.
    - Python [float] values are idealised as real numbers ([R]) where the
      code only adds, multiplies, compares and applies continuous
      functions: rounding, infinities and NaN are not modelled there.
      Comparisons are the boolean functions [Rleb] and [Rltb].
    - [Camera.to_servo] is modelled on binary64 numbers ([float]): the
      result of its [%] depends on rounding.
    - A Python call that can raise is a value of [result]: [Ok v] or
      [Raise e].
    - numpy 3-vectors are the record [ndarray]; [np.array([x, y, z])] is
      its constructor.  [np.array(a, b, c)], as [to_local] calls it, is
      [np_array] and raises.
    - The classes [GPSCoord] and [LocalCoord] are imported by
      [camera.py] but only their methods [to_local] and [get_ecef] are in
      the repository's sources; they are the records below, with the field
      names [camera.py] uses ([coords.py] abbreviates them [lat], [long],
      [alt]).
    - [util.extrapolate] is not in the sources; it is a parameter. *)

From Stdlib Require Import Floats.
From Stdlib Require Import Reals Lra Lia List ZArith Bool.
Import ListNotations.
Local Open Scope R_scope.

(** ** Exceptions *)

Inductive exn : Set :=
  AttributeError | TypeError | IndexError | ZeroDivisionError.

Inductive result (A : Type) : Type :=
| Ok (a : A)
| Raise (e : exn).
Arguments Ok {A} a.
Arguments Raise {A} e.

Definition bind {A B : Type} (c : result A) (k : A -> result B) : result B :=
  match c with
  | Ok a => k a
  | Raise e => Raise e
  end.

Notation "x <- c ;; k" := (bind c (fun x => k))
  (at level 61, c at next level, right associativity).

Definition raises {A : Type} (c : result A) : Prop :=
  exists e, c = Raise e.

(** ** Numbers *)

Module Py.

Definition Rleb (x y : R) : bool := if Rle_dec x y then true else false.
Definition Rltb (x y : R) : bool := if Rlt_dec x y then true else false.

(** [np.isclose(a, b)] with numpy's default tolerances. *)
Definition rtol : R := 1e-5.
Definition atol : R := 1e-8.
Definition isclose (a b : R) : bool := Rleb (Rabs (a - b)) (atol + rtol * Rabs b).

End Py.

(** Binary64 arithmetic, for [Camera.to_servo]. *)
Module Binary64.

(** [math.pi]. *)
Definition pi : float := 0x1.921fb54442d18p+1%float.

(** C's [fmod]: the exact remainder of the division truncated towards
    zero, with the sign of [x]; nan when [x] is infinite or [y] is
    zero. *)
Definition fmod (x y : float) : float :=
  match Prim2SF x, Prim2SF y with
  | S754_nan, _ | _, S754_nan => nan
  | S754_infinity _, _ => nan
  | _, S754_zero _ => nan
  | S754_zero _, _ => x
  | S754_finite _ _ _, S754_infinity _ => x
  | S754_finite sx mx ex, S754_finite _ my ey =>
      let e := Z.min ex ey in
      let X := (Zpos mx * 2 ^ (ex - e))%Z in
      let Y := (Zpos my * 2 ^ (ey - e))%Z in
      match (X mod Y)%Z with
      | Zpos r => SF2Prim (S754_finite sx r e)
      | _ => if sx then neg_zero else zero
      end
  end.

(** Python's [vx % wx] on floats: a zero remainder takes the sign of
    [wx], and [wx] is added to a remainder of the opposite sign; that
    addition rounds. *)
Definition float_rem (vx wx : float) : result float :=
  if (wx =? 0)%float then Raise ZeroDivisionError
  else
    let mod_ := fmod vx wx in
    if (mod_ =? 0)%float
    then Ok (if get_sign wx then neg_zero else zero)
    else if xorb (wx <? 0)%float (mod_ <? 0)%float
         then Ok (mod_ + wx)%float
         else Ok mod_.

(** A [LocalCoord] with binary64 fields. *)
Record LocalCoord : Type := mkLocalCoord
  { altitude_angle : float; azimuth : float; distance : float }.

End Binary64.

(** ** coords.py *)

Module Coords.

Record GPSCoord : Type := mkGPSCoord
  { latitude : R; longitude : R; altitude : R }.

Record LocalCoord : Type := mkLocalCoord
  { altitude_angle : R; azimuth : R; distance : R }.

Record ndarray : Type := array { item0 : R; item1 : R; item2 : R }.

Definition sub (u v : ndarray) : ndarray :=
  array (item0 u - item0 v) (item1 u - item1 v) (item2 u - item2 v).

Definition dot (u v : ndarray) : R :=
  item0 u * item0 v + item1 u * item1 v + item2 u * item2 v.

(** [numpy.linalg.norm] of a vector: the Euclidean norm. *)
Definition norm (u : ndarray) : R := sqrt (dot u u).

(** The radii of the Earth's major and minor axes, in feet. *)
Definition equatorial_radius : R := 20925646.3.
Definition polar_radius : R := 20855486.5.

Definition _prime_vertical_radius_of_curvature (phi : R) : R :=
  sqrt (1 - (1 - polar_radius ^ 2 / equatorial_radius ^ 2) * sin phi ^ 2).

Definition get_ecef (self : GPSCoord) : ndarray :=
  let n_phi := _prime_vertical_radius_of_curvature (latitude self) in
  let x := (n_phi + altitude self) * cos (latitude self) * cos (longitude self) in
  let y := (n_phi + altitude self) * cos (latitude self) * sin (longitude self) in
  let z := ((polar_radius ^ 2 / equatorial_radius ^ 2) * n_phi + altitude self)
           * sin (latitude self) in
  array x y z.

(** [np.array(a, b, c)], three scalars passed as positional arguments:
    [numpy.array] takes the object and at most one more positional
    argument, the dtype, so the call raises [TypeError] whatever the
    scalars are. *)
Definition np_array (a b c : R) : result ndarray := Raise TypeError.

(** Lines 39 to 48 of [to_local]: the projections, the horizontal angle
    and the result, from the values of the lines before.  With a zero
    norm a projection is nan or inf in numpy, which real numbers do not
    represent: what is stated about this function assumes non-zero
    norms. *)
Definition to_local_tail (self target : GPSCoord) (delta : ndarray)
    (vertical delta_norm : R) (level_north level_east : ndarray)
  : LocalCoord :=
  let north_proj := dot level_north delta / norm level_north in
  let east_proj := dot level_east delta / norm level_east in
  let horizontal :=
    if Py.isclose north_proj 0
    then PI / 2
    else atan (east_proj / north_proj) in
  let horizontal :=
    if Py.Rltb (latitude self) (latitude target)
    then horizontal + PI
    else horizontal in
  mkLocalCoord vertical horizontal delta_norm.

(** [to_local] raises at its first [np.array] call (line 32) and never
    reaches the lines after it; the values of lines 26 to 30 are not
    read before that. *)
Definition to_local (self target : GPSCoord) : result LocalCoord :=
  let self_ecef := get_ecef self in
  let delta := sub self_ecef (get_ecef target) in
  let delta_norm := norm delta in
  let vertical :=
    acos (dot self_ecef delta / (norm self_ecef * delta_norm)) in
  level_north <- np_array (- item0 self_ecef * item2 self_ecef)
                          (- item1 self_ecef * item2 self_ecef)
                          (item0 self_ecef ^ 2 + item1 self_ecef ^ 2) ;;
  level_east <- np_array (- item1 self_ecef) (item0 self_ecef) 0 ;;
  Ok (to_local_tail self target delta vertical delta_norm
        level_north level_east).

End Coords.

(** ** camera.py *)

Module Camera.
Import Coords.

(** *** View *)

Record View : Type := mkView
  { upper_bound : R; lower_bound : R; left_bound : R; right_bound : R }.

Definition contains (self : View) (position : LocalCoord) : bool :=
  if Py.Rleb (upper_bound self) (altitude_angle position)
     && Py.Rleb (altitude_angle position) (lower_bound self)
  then
    if Py.Rleb (left_bound self) (azimuth position)
       && Py.Rleb (azimuth position) (right_bound self)
    then true
    else if Py.Rleb (right_bound self) (left_bound self)
            && (Py.Rleb (left_bound self) (azimuth position)
                || Py.Rleb (azimuth position) (right_bound self))
    then true
    else false
  else false.

(** *** Airplane *)

(** [collections.deque(..., maxlen).append]: a full deque drops its
    leftmost item. *)
Definition deque_append {A : Type} (maxlen : nat) (d : list A) (x : A) : list A :=
  let d' := d ++ [x] in
  if (maxlen <? length d')%nat then tl d' else d'.

Definition max_timestamped_positions : nat := 3.

(** The three lambdas that [Airplane] stores in [self.extrapolation].
    The second and the third read [self] when they are called. *)
Inductive extrapolation_fn : Type :=
| origin_fn          (* lambda x: GPSCoord(0.0, 0.0, 0.0) *)
| first_position_fn  (* lambda t: self.timestamped_positions[0][1] *)
| fitted_fn (extrapolate_array : R -> list R)
    (* lambda t: GPSCoord of the items of extrapolate_array(t - self.init_time) *).

Record Airplane : Type := mkAirplane
  { init_time : R;
    extrapolation : extrapolation_fn;
    timestamped_positions : list (R * GPSCoord) }.

(** [Airplane.__init__]; [self.id] is [None] and never read. *)
Definition Airplane_init (init_time : R) : Airplane :=
  mkAirplane init_time origin_fn [].

(** [GPSCoord] applied to the unpacked items of [values]. *)
Definition GPSCoord_of_list (values : list R) : result GPSCoord :=
  match values with
  | [lat; long; alt] => Ok (mkGPSCoord lat long alt)
  | _ => Raise TypeError
  end.

(** [self.extrapolation(t)]. *)
Definition call_extrapolation (self : Airplane) (t : R) : result GPSCoord :=
  match extrapolation self with
  | origin_fn => Ok (mkGPSCoord 0 0 0)
  | first_position_fn =>
      match timestamped_positions self with
      | [] => Raise IndexError
      | (_, coord) :: _ => Ok coord
      end
  | fitted_fn extrapolate_array =>
      GPSCoord_of_list (extrapolate_array (t - init_time self))
  end.

(** The property [position]; [now] is the value of [time()]. *)
Definition position (self : Airplane) (now : R) : result GPSCoord :=
  call_extrapolation self now.

Section Extrapolate.

(** [util.extrapolate(times, positions)] returns the fitted function. *)
Variable extrapolate : list R -> list (list R) -> R -> list R.

Definition _update_extrapolation (self : Airplane) : Airplane :=
  let times :=
    map (fun tp => fst tp - init_time self) (timestamped_positions self) in
  let positions :=
    map (fun tp => [latitude (snd tp); longitude (snd tp); altitude (snd tp)])
        (timestamped_positions self) in
  if (length times =? 1)%nat
  then mkAirplane (init_time self) first_position_fn (timestamped_positions self)
  else mkAirplane (init_time self) (fitted_fn (extrapolate times positions))
                  (timestamped_positions self).

Definition append_position (self : Airplane) (new_time : R) (new_pos : GPSCoord)
  : Airplane :=
  _update_extrapolation
    (mkAirplane (init_time self) (extrapolation self)
       (deque_append max_timestamped_positions (timestamped_positions self)
          (new_time, new_pos))).

(** Several calls of [append_position], in the order of the list. *)
Definition append_positions (self : Airplane) (samples : list (R * GPSCoord))
  : Airplane :=
  fold_left (fun a tp => append_position a (fst tp) (snd tp)) samples self.

(** The airplanes a program can build: a new one, and one after a call
    of [append_position]. *)
Inductive reachable : Airplane -> Prop :=
| reachable_init : forall t, reachable (Airplane_init t)
| reachable_append : forall a t p,
    reachable a -> reachable (append_position a t p).

End Extrapolate.

(** *** Camera *)

Record Camera : Type := mkCamera
  { gps_position : option GPSCoord;
    tracked_airplane : option Airplane;
    direction : option float;
    view : option View;
    airplanes : list Airplane }.

Definition Camera_init : Camera := mkCamera None None None None [].

Definition to_servo (self : Camera) (lc : Binary64.LocalCoord)
  : result (float * float) :=
  match direction self with
  | None => Raise TypeError
  | Some d =>
      pan <- Binary64.float_rem (d - Binary64.azimuth lc)%float
                                (2 * Binary64.pi)%float ;;
      let tilt := (Binary64.pi / 2 - Binary64.altitude_angle lc)%float in
      Ok (pan, tilt)
  end.

Section CanSee.

(** The method [to_local] of the object that [gps_position] holds. *)
Variable to_local_method : GPSCoord -> GPSCoord -> result LocalCoord.

(** [self.gps_position.to_local] is looked up before the argument
    [plane.position] is evaluated, and [self.view.contains] after the
    call has returned. *)
Definition can_see_with (self : Camera) (plane : Airplane) (now : R)
  : result bool :=
  match gps_position self with
  | None => Raise AttributeError
  | Some gps =>
      plane_position <- position plane now ;;
      plane_local <- to_local_method gps plane_position ;;
      match view self with
      | None => Raise AttributeError
      | Some v => Ok (contains v plane_local)
      end
  end.

End CanSee.

(** [Camera.can_see]: the position of the camera is a [GPSCoord], whose
    method is [to_local] of [coords.py]. *)
Definition can_see : Camera -> Airplane -> R -> result bool :=
  can_see_with to_local.

End Camera.

(** * Vocabulary of the specification *)

Import Coords Camera.

(** ** Coordinate Transform *)

(** The formulas of [ecef] as the specification writes them, for a
    latitude [phi], a longitude [lam] and an altitude [alt]. *)
Definition Re : R := 20925646.3.
Definition Rp : R := 20855486.5.

Definition N_spec (phi : R) : R := sqrt (1 - (1 - Rp² / Re²) * (sin phi)²).

Definition x_spec (phi lam alt : R) : R := (N_spec phi + alt) * cos phi * cos lam.
Definition y_spec (phi lam alt : R) : R := (N_spec phi + alt) * cos phi * sin lam.
Definition z_spec (phi lam alt : R) : R := ((Rp² / Re²) * N_spec phi + alt) * sin phi.





(** ** View Model *)

(** [outer] has its four bounds at or beyond those of [inner]. *)
Definition encloses (outer inner : View) : Prop :=
  upper_bound outer <= upper_bound inner
  /\ lower_bound inner <= lower_bound outer
  /\ left_bound outer <= left_bound inner
  /\ right_bound inner <= right_bound outer.

Section ViewContains.

Variables (v : View) (c : LocalCoord).

Definition altitude_test : Prop :=
  upper_bound v <= altitude_angle c <= lower_bound v.

(** The azimuth test as the specification words it: the plain interval
    when [left_bound <= right_bound], the wrapped one when
    [left_bound > right_bound]. *)
Definition azimuth_test_spec : Prop :=
  (left_bound v <= right_bound v ->
     left_bound v <= azimuth c <= right_bound v)
  /\ (left_bound v > right_bound v ->
     azimuth c >= left_bound v \/ azimuth c <= right_bound v).

(** The azimuth test of the code: the wrapped test also covers
    [left_bound = right_bound]. *)
Definition azimuth_test_code : Prop :=
  (left_bound v < right_bound v ->
     left_bound v <= azimuth c <= right_bound v)
  /\ (left_bound v >= right_bound v ->
     azimuth c >= left_bound v \/ azimuth c <= right_bound v).

End ViewContains.

(** ** Position Predictor *)

(** The last [n] items of a list. *)
Definition lastn {A : Type} (n : nat) (l : list A) : list A :=
  skipn (length l - n) l.

(** What [_update_extrapolation] passes to [util.extrapolate]. *)
Definition times_of (t0 : R) (samples : list (R * GPSCoord)) : list R :=
  map (fun tp => fst tp - t0) samples.

Definition positions_of (samples : list (R * GPSCoord)) : list (list R) :=
  map (fun tp => [latitude (snd tp); longitude (snd tp); altitude (snd tp)])
      samples.

(** ** Concrete inputs *)

(** An observer on the equator at the prime meridian, a target a little
    north of it, and a target to its south-east. *)
Definition equator : GPSCoord := mkGPSCoord 0 0 0.
Definition south_east : GPSCoord := mkGPSCoord (- (PI / 4)) (PI / 2) 0.

(** A camera at [equator] whose view is the western half of the
    horizon, and an airplane reported once at [south_east]. *)
Definition west_view : View := mkView 0 PI PI (2 * PI).
Definition west_camera : Camera :=
  mkCamera (Some equator) None (Some 0%float) (Some west_view) [].

(** A local coordinate with a negative azimuth, and a [to_local] method
    that answers it. *)
Definition negative_azimuth : LocalCoord := mkLocalCoord 1 (- 1) 5.
Definition fixed_to_local : GPSCoord -> GPSCoord -> result LocalCoord :=
  fun _ _ => Ok negative_azimuth.

(** A camera facing direction 0.0 and a local coordinate with the
    azimuth 1e-20 (the nearest binary64 number). *)
Definition seam_camera : Camera := mkCamera None None (Some 0%float) None [].
Definition seam_coord : Binary64.LocalCoord :=
  Binary64.mkLocalCoord 1%float 0x1.79ca10c924223p-67%float 5%float.

(** A fit that ignores its samples, for the concrete airplanes below. *)
Definition no_fit : list R -> list (list R) -> R -> list R :=
  fun _ _ _ => [].

(** A fit that answers the same three values at every time. *)
Definition flat_fit : list R -> list (list R) -> R -> list R :=
  fun _ _ _ => [0.5; 0.25; 30000].

Definition two_samples : Airplane :=
  append_position flat_fit
    (append_position flat_fit (Airplane_init 7) 8 (mkGPSCoord 0.1 0.5 31000))
    9 (mkGPSCoord 0.2 0.5 32000).

(** Two samples and a fit that answers no value. *)
Definition unfitted_plane : Airplane :=
  append_position no_fit
    (append_position no_fit (Airplane_init 7) 8 (mkGPSCoord 0.1 0.5 31000))
    9 (mkGPSCoord 0.2 0.5 32000).

Definition south_east_plane : Airplane :=
  append_position no_fit (Airplane_init 0) 1 south_east.

Definition one_sample : Airplane :=
  append_position no_fit (Airplane_init 7) 8 (mkGPSCoord 1 (1 / 2) 30000).

Definition four_samples : list (R * GPSCoord) :=
  [(1, mkGPSCoord 0.1 0.5 31000); (2, mkGPSCoord 0.2 0.5 32000);
   (3, mkGPSCoord 0.3 0.5 33000); (4, mkGPSCoord 0.4 0.5 34000)].

(** * Properties *)

(** ** Comparisons *)

Lemma Rleb_true (x y : R) : Py.Rleb x y = true <-> x <= y.
Proof.
  unfold Py.Rleb. destruct (Rle_dec x y); split; intros; try easy.
Qed.

Lemma Rleb_false (x y : R) : Py.Rleb x y = false <-> y < x.
Proof.
  unfold Py.Rleb. destruct (Rle_dec x y); split; intros; try easy; lra.
Qed.

Lemma Rltb_true (x y : R) : Py.Rltb x y = true <-> x < y.
Proof.
  unfold Py.Rltb. destruct (Rlt_dec x y); split; intros; try easy.
Qed.

Lemma Rltb_false (x y : R) : Py.Rltb x y = false <-> y <= x.
Proof.
  unfold Py.Rltb. destruct (Rlt_dec x y); split; intros; try easy; lra.
Qed.


(** Case analysis on every comparison of the goal. *)
Ltac compare_all :=
  repeat match goal with
  | |- context [Py.Rleb ?x ?y] =>
      let H := fresh "H" in
      destruct (Py.Rleb x y) eqn:H;
      [apply Rleb_true in H | apply Rleb_false in H]
  | |- context [Py.Rltb ?x ?y] =>
      let H := fresh "H" in
      destruct (Py.Rltb x y) eqn:H;
      [apply Rltb_true in H | apply Rltb_false in H]
  end.

(** ** View.contains *)


(** C2, as the specification states it, fails on a view whose azimuth
    bounds are equal: [contains] accepts an azimuth outside of the
    one-point interval. *)
Lemma contains_equal_bounds_counterexample :
  let v := mkView 0 2 1 1 in
  let c := mkLocalCoord 1 2 0 in
  contains v c = true /\ ~ (altitude_test v c /\ azimuth_test_spec v c).
Proof.
  cbv zeta. split.
  - unfold contains; simpl. compare_all; simpl; try reflexivity; lra.
  - unfold altitude_test, azimuth_test_spec; simpl. intros [_ [H _]]. lra.
Qed.

(** [contains] in terms of the two tests of the code. *)
Lemma contains_true (v : View) (c : LocalCoord) :
  contains v c = true <-> altitude_test v c /\ azimuth_test_code v c.
Proof.
  unfold altitude_test, azimuth_test_code, contains.
  split; compare_all; simpl;
    try (intros; reflexivity); try (intros; discriminate); intros; lra.
Qed.

Lemma contains_false (v : View) (c : LocalCoord) :
  ~ altitude_test v c -> contains v c = false.
Proof.
  intros Halt. destruct (contains v c) eqn:Hc; [|reflexivity].
  apply contains_true in Hc. destruct Halt. apply Hc.
Qed.

(** C2 (amended): [contains] is true exactly when the altitude test
    [upper_bound <= altitude_angle <= lower_bound] and the azimuth test
    pass, where the azimuth test is [left_bound <= azimuth <= right_bound]
    when [left_bound < right_bound], and [azimuth >= left_bound] or
    [azimuth <= right_bound] when [left_bound >= right_bound]; a failed
    altitude test makes the result false. *)
Theorem contains_iff (v : View) (c : LocalCoord) :
  (contains v c = true <-> altitude_test v c /\ azimuth_test_code v c)
  /\ (~ altitude_test v c -> contains v c = false).
Proof.
  split; [apply contains_true | apply contains_false].
Qed.

(** C10: a view whose [upper_bound] is greater than its [lower_bound]
    contains no local coordinate; [contains] is a total function, it
    answers [false] and does not raise. *)
Theorem contains_empty_band (v : View) :
  upper_bound v > lower_bound v ->
  forall c : LocalCoord, contains v c = false.
Proof.
  intros Hband c.
  apply contains_false. unfold altitude_test. lra.
Qed.

Lemma contains_empty_band_witness :
  upper_bound (mkView 2 1 0 3) > lower_bound (mkView 2 1 0 3)
  /\ contains (mkView 2 1 0 3) (mkLocalCoord (3 / 2) 1 10) = false.
Proof.
  assert (H : upper_bound (mkView 2 1 0 3) > lower_bound (mkView 2 1 0 3))
    by (simpl; lra).
  split; [exact H | exact (contains_empty_band _ H _)].
Defined.

(** ** Airplane *)


Lemma lastn_length {A : Type} (n : nat) (l : list A) :
  length (lastn n l) = Nat.min n (length l).
Proof. unfold lastn. rewrite length_skipn. lia. Qed.

Lemma lastn_all {A : Type} (n : nat) (l : list A) :
  (length l <= n)%nat -> lastn n l = l.
Proof.
  intros H. unfold lastn. replace (length l - n)%nat with 0%nat by lia.
  reflexivity.
Qed.

Lemma lastn_app {A : Type} (n : nat) (u l : list A) :
  (n <= length l)%nat -> lastn n (u ++ l) = lastn n l.
Proof.
  intros H. unfold lastn. rewrite length_app, skipn_app.
  replace (length u + length l - n - length u)%nat with (length l - n)%nat by lia.
  rewrite skipn_all2 by lia. reflexivity.
Qed.

Lemma deque_append_lastn {A : Type} (n : nat) (d : list A) (x : A) :
  (length d <= n)%nat -> deque_append n d x = lastn n (d ++ [x]).
Proof.
  intros H. unfold deque_append, lastn. rewrite length_app. simpl.
  destruct (Nat.ltb_spec n (length d + 1)).
  - replace (length d + 1 - n)%nat with 1%nat by lia.
    destruct (d ++ [x]); reflexivity.
  - replace (length d + 1 - n)%nat with 0%nat by lia. reflexivity.
Qed.

Lemma lastn_snoc {A : Type} (n : nat) (u : list A) (x : A) :
  lastn n (lastn n u ++ [x]) = lastn n (u ++ [x]).
Proof.
  destruct (Nat.le_gt_cases (length u) n) as [H | H].
  - rewrite (lastn_all n u H). reflexivity.
  - unfold lastn at 2.
    rewrite <- (firstn_skipn (length u - n) u) at 3.
    set (s := skipn (length u - n) u).
    assert (Hs : length s = n) by (unfold s; rewrite length_skipn; lia).
    rewrite <- app_assoc.
    rewrite (lastn_app n (firstn _ u) (s ++ [x]))
      by (rewrite length_app; simpl; lia).
    reflexivity.
Qed.

Section Airplanes.

Variable extrapolate : list R -> list (list R) -> R -> list R.

Local Abbreviation append_position := (append_position extrapolate).
Local Abbreviation append_positions := (append_positions extrapolate).
Local Abbreviation reachable := (reachable extrapolate).


Lemma append_position_init_time a t p :
  init_time (append_position a t p) = init_time a.
Proof.
  unfold Camera.append_position, _update_extrapolation. simpl.
  destruct (_ =? 1)%nat; reflexivity.
Qed.

Lemma append_position_buffer a t p :
  timestamped_positions (append_position a t p)
  = deque_append 3 (timestamped_positions a) (t, p).
Proof.
  unfold Camera.append_position, _update_extrapolation. simpl.
  destruct (_ =? 1)%nat; reflexivity.
Qed.

Lemma append_position_extrapolation a t p :
  extrapolation (append_position a t p)
  = let buffer := timestamped_positions (append_position a t p) in
    if (length buffer =? 1)%nat then first_position_fn
    else fitted_fn (extrapolate (times_of (init_time a) buffer)
                                (positions_of buffer)).
Proof.
  cbv zeta. rewrite append_position_buffer.
  unfold Camera.append_position, _update_extrapolation. simpl.
  rewrite length_map. destruct (_ =? 1)%nat; reflexivity.
Qed.

Lemma deque_append_not_nil {A : Type} (d : list A) (x : A) :
  deque_append 3 d x <> [].
Proof.
  unfold deque_append. destruct (Nat.ltb_spec 3 (length (d ++ [x]))).
  - destruct (d ++ [x]) as [| y [| z l]]; simpl in *; try lia. discriminate.
  - destruct d; discriminate.
Qed.

Lemma append_positions_snoc a samples t p :
  append_positions a (samples ++ [(t, p)])
  = append_position (append_positions a samples) t p.
Proof. unfold Camera.append_positions. rewrite fold_left_app. reflexivity. Qed.

Lemma append_positions_init_time a samples :
  init_time (append_positions a samples) = init_time a.
Proof.
  induction samples as [| [t p] samples IH] using rev_ind; [reflexivity|].
  rewrite append_positions_snoc, append_position_init_time. exact IH.
Qed.

Lemma append_positions_buffer a samples :
  (length (timestamped_positions a) <= 3)%nat ->
  timestamped_positions (append_positions a samples)
  = lastn 3 (timestamped_positions a ++ samples).
Proof.
  intros Ha.
  induction samples as [| [t p] samples IH] using rev_ind.
  - rewrite app_nil_r, lastn_all by exact Ha. reflexivity.
  - rewrite append_positions_snoc, append_position_buffer, IH.
    rewrite deque_append_lastn by (rewrite lastn_length; lia).
    rewrite lastn_snoc, app_assoc. reflexivity.
Qed.

Lemma reachable_buffer_length a :
  reachable a -> (length (timestamped_positions a) <= 3)%nat.
Proof.
  induction 1 as [t | a t p _ IH]; simpl; [lia|].
  rewrite append_position_buffer, deque_append_lastn, lastn_length by exact IH.
  lia.
Qed.

(** C1, as the specification states it, fails: a new airplane has no
    sample, and reading its position does not raise but answers the
    geodetic coordinate (0, 0, 0). *)
Lemma position_new_airplane_counterexample :
  timestamped_positions (Airplane_init 0) = []
  /\ ~ raises (position (Airplane_init 0) 5)
  /\ position (Airplane_init 0) 5 = Ok (mkGPSCoord 0 0 0).
Proof.
  split; [reflexivity|]. split; [|reflexivity].
  intros [e He]. discriminate He.
Qed.

(** C1 (amended): for every airplane with zero recorded samples, its
    position at any time is the geodetic coordinate (0, 0, 0), the value
    of the extrapolation that [Airplane.__init__] installs; no error is
    raised. *)
Theorem position_without_samples (a : Airplane) (now : R) :
  reachable a ->
  timestamped_positions a = [] ->
  position a now = Ok (mkGPSCoord 0 0 0).
Proof.
  intros Ha Hbuf. destruct Ha as [t | a t p _].
  - reflexivity.
  - rewrite append_position_buffer in Hbuf.
    destruct (deque_append_not_nil _ _ Hbuf).
Qed.

(** C6: for every airplane whose buffer holds exactly one sample
    [(t0, p0)], the position at every query time is exactly [p0]. *)
Theorem position_single_sample (a : Airplane) (t0 : R) (p0 : GPSCoord) :
  reachable a ->
  timestamped_positions a = [(t0, p0)] ->
  forall t : R, position a t = Ok p0.
Proof.
  intros Ha Hbuf t. destruct Ha as [t1 | a t1 p1 _].
  - discriminate Hbuf.
  - unfold position, call_extrapolation.
    rewrite append_position_extrapolation. cbv zeta.
    rewrite Hbuf. reflexivity.
Qed.

(** C7: the buffer of an airplane never holds more than 3 samples;
    appending to a full buffer drops the oldest sample; after appending
    [n >= 3] samples the buffer holds the latest 3 in arrival order, and
    the extrapolation is the fit that [util.extrapolate] returns for those
    3 samples. *)
Theorem buffer_keeps_latest_three (a : Airplane) (samples : list (R * GPSCoord)) :
  reachable a ->
  let a' := append_positions a samples in
  (length (timestamped_positions a') <= 3)%nat
  /\ (forall t p,
        length (timestamped_positions a) = 3%nat ->
        timestamped_positions (append_position a t p)
        = tl (timestamped_positions a) ++ [(t, p)])
  /\ ((3 <= length samples)%nat ->
      timestamped_positions a' = lastn 3 samples
      /\ extrapolation a'
         = fitted_fn (extrapolate (times_of (init_time a) (lastn 3 samples))
                                  (positions_of (lastn 3 samples)))).
Proof.
  intros Ha a'. pose proof (reachable_buffer_length a Ha) as Hlen.
  assert (Hbuf : timestamped_positions a'
                 = lastn 3 (timestamped_positions a ++ samples))
    by (apply append_positions_buffer; exact Hlen).
  split; [|split].
  - rewrite Hbuf, lastn_length. lia.
  - intros t p Hfull. rewrite append_position_buffer.
    unfold deque_append. rewrite length_app, Hfull. simpl.
    destruct (timestamped_positions a); [discriminate Hfull | reflexivity].
  - intros Hn. rewrite lastn_app in Hbuf by exact Hn.
    split; [exact Hbuf|].
    destruct samples as [| s samples _] using rev_ind; [simpl in Hn; lia|].
    destruct s as [t p]. subst a'.
    rewrite append_positions_snoc in Hbuf |- *.
    rewrite append_position_extrapolation. cbv zeta.
    rewrite Hbuf, lastn_length, append_positions_init_time.
    replace (Nat.min 3 (length (samples ++ [(t, p)]))) with 3%nat by lia.
    reflexivity.
Qed.

End Airplanes.


Lemma position_without_samples_witness :
  reachable no_fit (Airplane_init 7)
  /\ timestamped_positions (Airplane_init 7) = []
  /\ position (Airplane_init 7) 9 = Ok (mkGPSCoord 0 0 0).
Proof.
  assert (Hr : reachable no_fit (Airplane_init 7)) by constructor.
  split; [exact Hr|]. split; [reflexivity|].
  exact (position_without_samples no_fit _ 9 Hr eq_refl).
Defined.


Lemma position_single_sample_witness :
  reachable no_fit one_sample
  /\ timestamped_positions one_sample = [(8, mkGPSCoord 1 (1 / 2) 30000)]
  /\ position one_sample 3 = Ok (mkGPSCoord 1 (1 / 2) 30000)
  /\ position one_sample 8 = Ok (mkGPSCoord 1 (1 / 2) 30000)
  /\ position one_sample 100 = Ok (mkGPSCoord 1 (1 / 2) 30000).
Proof.
  assert (Hr : reachable no_fit one_sample) by (repeat constructor).
  assert (Hb : timestamped_positions one_sample
               = [(8, mkGPSCoord 1 (1 / 2) 30000)]) by reflexivity.
  pose proof (position_single_sample no_fit _ _ _ Hr Hb) as H.
  split; [exact Hr|]. split; [exact Hb|].
  repeat split; apply H.
Defined.


Lemma buffer_keeps_latest_three_witness :
  reachable no_fit (Airplane_init 0)
  /\ timestamped_positions (append_positions no_fit (Airplane_init 0) four_samples)
     = [(2, mkGPSCoord 0.2 0.5 32000); (3, mkGPSCoord 0.3 0.5 33000);
        (4, mkGPSCoord 0.4 0.5 34000)].
Proof.
  assert (Hr : reachable no_fit (Airplane_init 0)) by constructor.
  split; [exact Hr|].
  destruct (buffer_keeps_latest_three no_fit _ four_samples Hr) as (_ & _ & H).
  destruct H as [H _]; [simpl; lia | exact H].
Defined.

(** ** get_ecef *)

(** C5: [get_ecef] returns exactly the three coordinates of the
    specification's formulas, with the specification's radius of
    curvature and radii. *)
Theorem get_ecef_formula (c : GPSCoord) :
  get_ecef c
  = array (x_spec (latitude c) (longitude c) (altitude c))
          (y_spec (latitude c) (longitude c) (altitude c))
          (z_spec (latitude c) (longitude c) (altitude c))
  /\ _prime_vertical_radius_of_curvature (latitude c) = N_spec (latitude c)
  /\ Re = 20925646.3 /\ Rp = 20855486.5.
Proof.
  assert (HN : forall phi, _prime_vertical_radius_of_curvature phi = N_spec phi).
  { intros phi. unfold _prime_vertical_radius_of_curvature, N_spec.
    rewrite !Rsqr_pow2. reflexivity. }
  split; [|split; [apply HN | split; reflexivity]].
  unfold get_ecef, x_spec, y_spec, z_spec. cbv zeta.
  rewrite HN, !Rsqr_pow2. reflexivity.
Qed.

(** ** Camera.to_servo *)

(** C8: with the direction 0.0 and the azimuth 1e-20, the pan that
    [to_servo] returns is the binary64 number [2 * pi] itself: it is
    not less than 2 pi, so the pan does not always lie in the half-open
    interval from 0 to 2 pi.  The difference [0.0 - 1e-20] is a tiny
    negative number, its remainder has the sign opposite to the
    modulus, and adding the modulus rounds to the modulus. *)
Theorem to_servo_seam :
  to_servo seam_camera seam_coord
  = Ok ((2 * Binary64.pi)%float, (Binary64.pi / 2 - 1)%float)
  /\ (2 * Binary64.pi <? 2 * Binary64.pi)%float = false
  /\ (0 - Binary64.azimuth seam_coord <? 0)%float = true.
Proof.
  split; [|split]; vm_compute; reflexivity.
Qed.

(** ** Camera.can_see *)

Lemma to_local_raises (self target : GPSCoord) :
  to_local self target = Raise TypeError.
Proof. reflexivity. Qed.

Lemma can_see_raises (cam : Camera) (plane : Airplane) (now : R) :
  raises (can_see cam plane now).
Proof.
  unfold can_see, can_see_with, raises.
  destruct (gps_position cam) as [gps|]; [|eexists; reflexivity].
  destruct (position plane now) as [p | e]; simpl; eexists; reflexivity.
Qed.

(** C9: when the camera's position or its view is unset, [can_see]
    raises; it returns no answer. *)
Theorem can_see_uninitialized (cam : Camera) (plane : Airplane) (now : R) :
  gps_position cam = None \/ view cam = None ->
  raises (can_see cam plane now)
  /\ forall b : bool, can_see cam plane now <> Ok b.
Proof.
  intros _.
  pose proof (can_see_raises cam plane now) as Hr.
  split; [exact Hr|].
  intros b Hb. destruct Hr as [e He]. congruence.
Qed.

Lemma can_see_uninitialized_witness :
  (gps_position Camera_init = None \/ view Camera_init = None)
  /\ raises (can_see Camera_init one_sample 9).
Proof.
  assert (H : gps_position Camera_init = None \/ view Camera_init = None)
    by (left; reflexivity).
  split; [exact H | exact (proj1 (can_see_uninitialized _ one_sample 9 H))].
Defined.

Lemma south_east_plane_position (now : R) :
  position south_east_plane now = Ok south_east.
Proof. reflexivity. Qed.

(** C3, as the specification states it, fails.  [can_see] evaluates no
    containment: for a camera with position and view set and an
    airplane whose position can be read, [to_local] raises [TypeError]
    at its [np.array] call and the error propagates.  And [can_see]
    hands what the [to_local] method returns to [contains] as it is: for
    a method that answers the azimuth -1, the western view rejects it,
    while it contains the same coordinate with the azimuth taken modulo
    2 pi. *)
Lemma can_see_counterexample :
  position south_east_plane 2 = Ok south_east
  /\ can_see west_camera south_east_plane 2 = Raise TypeError
  /\ (forall b : bool, can_see west_camera south_east_plane 2 <> Ok b)
  /\ can_see_with fixed_to_local west_camera south_east_plane 2 = Ok false
  /\ contains west_view (mkLocalCoord 1 (- 1 + 2 * PI) 5) = true.
Proof.
  pose proof PI_RGT_0 as Hpi. pose proof PI2_3_2 as Hpi3.
  assert (Hraise : can_see west_camera south_east_plane 2 = Raise TypeError).
  { unfold can_see, can_see_with. simpl gps_position.
    rewrite south_east_plane_position. reflexivity. }
  split; [reflexivity|]. split; [exact Hraise|].
  split; [intros b Hb; congruence|]. split.
  - unfold can_see_with, fixed_to_local. simpl gps_position. simpl view.
    rewrite south_east_plane_position. simpl bind. f_equal.
    destruct (contains west_view negative_azimuth) eqn:Hc; [|reflexivity].
    apply contains_true in Hc. destruct Hc as [_ [Hplain _]].
    simpl in Hplain. lra.
  - apply contains_true. unfold altitude_test, azimuth_test_code. simpl.
    split; [lra|]. split; intros; lra.
Qed.

(** C3 (amended): for a camera with position and view set and an
    airplane whose position can be read, [can_see] passes the airplane's
    current estimated position to the [to_local] method of the camera's
    own position and, when the method returns a local coordinate,
    answers whether the view contains that coordinate, with the azimuth
    as returned; an error of the method propagates. *)
Theorem can_see_local_containment
    (to_local_method : GPSCoord -> GPSCoord -> result LocalCoord)
    (cam : Camera) (plane : Airplane) (now : R)
    (gps p : GPSCoord) (v : View) :
  gps_position cam = Some gps ->
  view cam = Some v ->
  position plane now = Ok p ->
  can_see_with to_local_method cam plane now
  = (lc <- to_local_method gps p ;; Ok (contains v lc))
  /\ can_see cam plane now = (lc <- to_local gps p ;; Ok (contains v lc)).
Proof.
  intros Hgps Hview Hpos. unfold can_see, can_see_with.
  rewrite Hgps, Hpos, Hview. split; reflexivity.
Qed.

Lemma can_see_local_containment_witness :
  can_see_with fixed_to_local west_camera south_east_plane 2
  = Ok (contains west_view negative_azimuth).
Proof.
  exact (proj1 (can_see_local_containment fixed_to_local
                  west_camera south_east_plane 2
                  equator south_east west_view eq_refl eq_refl eq_refl)).
Defined.

(** ** to_local *)

Lemma flattening_bounds :
  99 / 100 < polar_radius ^ 2 / equatorial_radius ^ 2 < 1.
Proof. unfold polar_radius, equatorial_radius. lra. Qed.


Lemma curvature_bounds (phi : R) :
  0 <= _prime_vertical_radius_of_curvature phi <= 1.
Proof.
  unfold _prime_vertical_radius_of_curvature.
  pose proof flattening_bounds as Hk.
  set (k := polar_radius ^ 2 / equatorial_radius ^ 2) in *.
  split; [apply sqrt_pos|].
  pose proof (pow2_ge_0 (sin phi)) as Hs.
  destruct (Rle_dec 0 (1 - (1 - k) * sin phi ^ 2)) as [Hpos | Hneg].
  - apply Rle_trans with (sqrt 1); [apply sqrt_le_1; nra | rewrite sqrt_1; lra].
  - rewrite sqrt_neg_0 by lra. lra.
Qed.







(** * Further properties of coords.py *)

(** X1: the value of [_prime_vertical_radius_of_curvature] lies between
    the ratio of the polar to the equatorial radius and 1, for every
    angle. *)
Theorem curvature_range (phi : R) :
  polar_radius / equatorial_radius
  <= _prime_vertical_radius_of_curvature phi <= 1.
Proof.
  split; [|apply curvature_bounds].
  unfold _prime_vertical_radius_of_curvature.
  assert (Hq : 0 < polar_radius / equatorial_radius < 1)
    by (unfold polar_radius, equatorial_radius; lra).
  assert (Hk : polar_radius ^ 2 / equatorial_radius ^ 2
               = polar_radius / equatorial_radius
                 * (polar_radius / equatorial_radius))
    by (unfold polar_radius, equatorial_radius; lra).
  rewrite Hk. set (q := polar_radius / equatorial_radius) in *.
  assert (Hs : 0 <= sin phi ^ 2 <= 1).
  { pose proof (SIN_bound phi). split; [apply pow2_ge_0 | nra]. }
  set (s2 := sin phi ^ 2) in *.
  assert (Hqq : 0 <= q * q < 1) by nra.
  set (k := q * q) in *.
  rewrite <- (sqrt_square q) at 1 by lra. fold k.
  assert (Hle : k <= 1 - (1 - k) * s2) by nra.
  apply sqrt_le_1; lra.
Qed.


(** X3: [to_local] returns no local coordinate: for every observer
    and target it raises [TypeError], at the [np.array] call with three
    positional arguments. *)
Theorem to_local_always_raises (self target : GPSCoord) :
  to_local self target = Raise TypeError
  /\ forall lc : LocalCoord, to_local self target <> Ok lc.
Proof.
  split; [apply to_local_raises|].
  intros lc H. rewrite to_local_raises in H. discriminate H.
Qed.

(** * Further properties of camera.py: Airplane *)

Lemma GPSCoord_of_list_raises (values : list R) (e : exn) :
  GPSCoord_of_list values = Raise e ->
  e = TypeError /\ length values <> 3%nat.
Proof.
  destruct values as [| a [| b [| c [| d l]]]]; simpl; intros H;
    try discriminate H; injection H as <-; split; auto; discriminate.
Qed.

Lemma deque_append_snoc {A : Type} (d : list A) (x : A) :
  exists front, deque_append 3 d x = front ++ [x].
Proof.
  unfold deque_append. destruct (3 <? length (d ++ [x]))%nat eqn:Hfull.
  - destruct d as [| y d]; [discriminate Hfull|]. exists d. reflexivity.
  - exists d. reflexivity.
Qed.

Section AirplaneInvariants.

Variable extrapolate : list R -> list (list R) -> R -> list R.

Local Abbreviation append_position := (append_position extrapolate).
Local Abbreviation append_positions := (append_positions extrapolate).
Local Abbreviation reachable := (reachable extrapolate).

(** The stored lambda always matches the buffer. *)
Lemma reachable_extrapolation (a : Airplane) :
  reachable a ->
  extrapolation a
  = match timestamped_positions a with
    | [] => origin_fn
    | [_] => first_position_fn
    | _ => fitted_fn (extrapolate
                        (times_of (init_time a) (timestamped_positions a))
                        (positions_of (timestamped_positions a)))
    end.
Proof.
  intros Ha. destruct Ha as [t | a t p _]; [reflexivity|].
  rewrite append_position_extrapolation, append_position_init_time. cbv zeta.
  pose proof (deque_append_not_nil (timestamped_positions a) (t, p)) as Hne.
  rewrite append_position_buffer.
  destruct (deque_append 3 (timestamped_positions a) (t, p)) as [| s [| s' l]];
    [destruct Hne| |]; reflexivity.
Qed.

(** X6: for every airplane with two or more buffered samples, the
    position at time [t] is the [GPSCoord] of the values that the fit of
    [util.extrapolate] gives at [t - init_time], where the fit was built
    from the buffered times minus [init_time] and the buffered
    coordinates. *)
Theorem position_fitted (a : Airplane) (t : R) :
  reachable a ->
  (2 <= length (timestamped_positions a))%nat ->
  position a t
  = GPSCoord_of_list
      (extrapolate (times_of (init_time a) (timestamped_positions a))
                   (positions_of (timestamped_positions a))
                   (t - init_time a)).
Proof.
  intros Ha Hlen. unfold position, call_extrapolation.
  rewrite (reachable_extrapolation a Ha).
  destruct (timestamped_positions a) as [| s [| s' l]]; simpl in Hlen; try lia.
  reflexivity.
Qed.

(** X7: reading the position of an airplane never raises [IndexError];
    it raises only [TypeError], and only when two or more samples are
    buffered and the fit answers a number of values other than 3. *)
Theorem position_raises_only_on_bad_fit (a : Airplane) (t : R) (e : exn) :
  reachable a ->
  position a t = Raise e ->
  e = TypeError
  /\ (2 <= length (timestamped_positions a))%nat
  /\ length (extrapolate (times_of (init_time a) (timestamped_positions a))
                         (positions_of (timestamped_positions a))
                         (t - init_time a)) <> 3%nat.
Proof.
  intros Ha. unfold position, call_extrapolation.
  rewrite (reachable_extrapolation a Ha).
  destruct (timestamped_positions a) as [| [t0 p0] [| s' l]].
  - discriminate.
  - discriminate.
  - intros H. apply GPSCoord_of_list_raises in H. destruct H as [He Hl].
    split; [exact He|]. split; [simpl; lia | exact Hl].
Qed.

(** X8: after appending a list of samples to a new airplane the buffer
    holds the last 3 of them in arrival order, and all of them when
    there are at most 3. *)
Theorem new_airplane_buffer (t0 : R) (samples : list (R * GPSCoord)) :
  timestamped_positions (append_positions (Airplane_init t0) samples)
  = lastn 3 samples
  /\ ((length samples <= 3)%nat ->
      timestamped_positions (append_positions (Airplane_init t0) samples)
      = samples).
Proof.
  assert (H : timestamped_positions (append_positions (Airplane_init t0) samples)
              = lastn 3 samples).
  { rewrite append_positions_buffer by (simpl; lia). reflexivity. }
  split; [exact H|]. intros Hlen. rewrite H. apply lastn_all. exact Hlen.
Qed.

(** X9: [append_position] always stores the new sample as the last item
    of the buffer, whatever the buffer held, and leaves [init_time]
    unchanged. *)
Theorem append_position_newest_last (a : Airplane) (t : R) (p : GPSCoord) :
  (exists front,
     timestamped_positions (append_position a t p) = front ++ [(t, p)])
  /\ init_time (append_position a t p) = init_time a.
Proof.
  split; [|apply append_position_init_time].
  rewrite append_position_buffer. apply deque_append_snoc.
Qed.

End AirplaneInvariants.

Lemma position_fitted_witness :
  reachable flat_fit two_samples
  /\ (2 <= length (timestamped_positions two_samples))%nat
  /\ position two_samples 10 = Ok (mkGPSCoord 0.5 0.25 30000).
Proof.
  assert (Hr : reachable flat_fit two_samples) by (repeat constructor).
  assert (Hl : (2 <= length (timestamped_positions two_samples))%nat)
    by (simpl; lia).
  split; [exact Hr|]. split; [exact Hl|].
  rewrite (position_fitted flat_fit two_samples 10 Hr Hl). reflexivity.
Defined.

Lemma position_raises_only_on_bad_fit_witness :
  reachable no_fit unfitted_plane
  /\ position unfitted_plane 10 = Raise TypeError
  /\ (2 <= length (timestamped_positions unfitted_plane))%nat.
Proof.
  assert (Hr : reachable no_fit unfitted_plane) by (repeat constructor).
  assert (Hp : position unfitted_plane 10 = Raise TypeError) by reflexivity.
  split; [exact Hr|]. split; [exact Hp|].
  exact (proj1 (proj2
    (position_raises_only_on_bad_fit no_fit unfitted_plane 10 TypeError Hr Hp))).
Defined.

(** * Further properties of camera.py: Camera and View *)

(** X13: [can_see] never answers: it raises for every camera and
    airplane.  An unset position raises [AttributeError] before the
    airplane is read; with the position set, an error of the airplane's
    position propagates, and when the position can be read [to_local]
    raises [TypeError], whether the view is set or not. *)
Theorem can_see_always_raises (cam : Camera) (plane : Airplane) (now : R) :
  raises (can_see cam plane now)
  /\ (gps_position cam = None -> can_see cam plane now = Raise AttributeError)
  /\ (forall e, gps_position cam <> None -> position plane now = Raise e ->
      can_see cam plane now = Raise e)
  /\ (forall p, gps_position cam <> None -> position plane now = Ok p ->
      can_see cam plane now = Raise TypeError).
Proof.
  split; [apply can_see_raises|].
  unfold can_see, can_see_with.
  destruct (gps_position cam) as [gps|].
  - split; [discriminate|]. split.
    + intros e _ He. rewrite He. reflexivity.
    + intros p _ Hp. rewrite Hp. reflexivity.
  - split; [reflexivity|]. split; intros ? H; destruct H; reflexivity.
Qed.

(** X15: widening a view keeps what it contains: when [outer] has its
    bounds at or beyond those of [inner], and [inner] does not wrap or
    [outer] wraps too, every local coordinate that [inner] contains is
    contained in [outer]. *)
Theorem contains_widen (inner outer : View) (c : LocalCoord) :
  encloses outer inner ->
  left_bound inner < right_bound inner
  \/ left_bound outer >= right_bound outer ->
  contains inner c = true ->
  contains outer c = true.
Proof.
  unfold encloses. intros (Hu & Hl & Hle & Hr) Hwrap Hin.
  apply contains_true in Hin. apply contains_true.
  unfold altitude_test, azimuth_test_code in *.
  destruct Hin as [Halt [Hplain Hwrapped]].
  split; [lra|]. split.
  - intros Hout. destruct Hwrap as [Hw | Hw]; [|lra].
    specialize (Hplain Hw). lra.
  - intros Hout. destruct (Rlt_dec (left_bound inner) (right_bound inner)) as [Hi | Hi].
    + specialize (Hplain Hi). lra.
    + destruct Hwrapped as [H | H]; [lra | left; lra | right; lra].
Qed.

Section PositionAnswers.

Variable extrapolate : list R -> list (list R) -> R -> list R.

Hypothesis extrapolate_three :
  forall times positions t, length (extrapolate times positions t) = 3%nat.

(** X16: when the fit of [util.extrapolate] always answers three values,
    reading the position of an airplane never raises. *)
Theorem position_answers (plane : Airplane) (now : R) :
  reachable extrapolate plane ->
  exists p, position plane now = Ok p.
Proof.
  intros Hr.
  destruct (position plane now) as [p | e] eqn:Hpos; [exists p; reflexivity|].
  unfold position, call_extrapolation in Hpos.
  rewrite (reachable_extrapolation extrapolate plane Hr) in Hpos.
  destruct (timestamped_positions plane) as [| [t0 p0] [| s l]];
    try discriminate Hpos.
  apply GPSCoord_of_list_raises in Hpos. destruct Hpos as [_ Hlen].
  destruct Hlen. apply extrapolate_three.
Qed.

End PositionAnswers.

Lemma contains_widen_witness :
  encloses (mkView 0 4 0 6) (mkView 1 2 1 3)
  /\ contains (mkView 1 2 1 3) (mkLocalCoord 1.5 2 10) = true
  /\ contains (mkView 0 4 0 6) (mkLocalCoord 1.5 2 10) = true.
Proof.
  assert (He : encloses (mkView 0 4 0 6) (mkView 1 2 1 3))
    by (unfold encloses; simpl; lra).
  assert (Hin : contains (mkView 1 2 1 3) (mkLocalCoord 1.5 2 10) = true).
  { apply contains_true. unfold altitude_test, azimuth_test_code. simpl. lra. }
  split; [exact He|]. split; [exact Hin|].
  apply (contains_widen _ _ _ He); [left; simpl; lra | exact Hin].
Defined.

Lemma position_answers_witness :
  reachable flat_fit two_samples
  /\ exists p, position two_samples 10 = Ok p.
Proof.
  assert (Hr : reachable flat_fit two_samples) by (repeat constructor).
  split; [exact Hr|].
  exact (position_answers flat_fit (fun _ _ _ => eq_refl) two_samples 10 Hr).
Defined.

(** * Further properties of get_ecef *)

